(** * SGA Web: shift resolution, leave expansion and statistics

    A shallow embedding of the planning engine of [backend/main.py]:
    the rotation calculator ([_cycle_standard_8j], [_cycle_c_diff],
    [_get_shift_theorique]), the write-through resolver
    ([_get_shift_effectif]), the manual writers ([modifier_shift],
    [enregistrer_absence], [ajouter_conge]), the statistics
    ([_calculer_stats_agent], [get_stats_global]) and the enrollment paths
    ([create_agent], the row loop of [import_excel]).

    Modelling conventions.
    - The SQLite database is a record of finite maps, one per table, keyed by
      the table's primary key; [INSERT OR REPLACE] is map insertion.
    - A calendar day is the proleptic Gregorian ordinal that Python's
      [date.toordinal] gives it (0001-01-01 is day 1).  ISO strings stored in
      the tables are identified with the day they denote, and the time line is
      unbounded: the limits of Python's [date] type (years 1 to 9999) are not
      part of the model.
    - Python [str] is [string]; [str.upper] is upper-casing of the ASCII
      letters.
    - An endpoint returns the database it leaves behind together with its
      response, which is either the JSON payload or the [HTTPException] it
      raised. *)

From stdpp Require Import gmap strings list fin_maps sorting.

#[local] Set Warnings "-clear-no-such-hyp".

Open Scope string_scope.
Open Scope Z_scope.

(** ** The Python runtime: [datetime.date] and [calendar.monthrange] *)

Module Calendrier.

Definition is_leap (year : Z) : bool :=
  (year mod 4 =? 0) && (negb (year mod 100 =? 0) || (year mod 400 =? 0)).

Definition DAYS_IN_MONTH : list Z :=
  [31; 28; 31; 30; 31; 30; 31; 31; 30; 31; 30; 31].

Definition DAYS_BEFORE_MONTH : list Z :=
  [0; 31; 59; 90; 120; 151; 181; 212; 243; 273; 304; 334].

Definition days_before_year (year : Z) : Z :=
  let y := year - 1 in y * 365 + y / 4 - y / 100 + y / 400.

Definition days_in_month (year month : Z) : Z :=
  if (month =? 2) && is_leap year then 29
  else nth (Z.to_nat (month - 1)) DAYS_IN_MONTH 0.

Definition days_before_month (year month : Z) : Z :=
  nth (Z.to_nat (month - 1)) DAYS_BEFORE_MONTH 0
  + (if (2 <? month) && is_leap year then 1 else 0).

(** [date(year, month, day).toordinal()] *)
Definition ymd2ord (year month day : Z) : Z :=
  days_before_year year + days_before_month year month + day.

Definition DI400Y : Z := 146097.
Definition DI100Y : Z := 36524.
Definition DI4Y : Z := 1461.

(** [date.fromordinal(n)] as (year, month, day) *)
Definition ord2ymd (n : Z) : Z * Z * Z :=
  let n := n - 1 in
  let n400 := n / DI400Y in
  let n := n mod DI400Y in
  let year := n400 * 400 + 1 in
  let n100 := n / DI100Y in
  let n := n mod DI100Y in
  let n4 := n / DI4Y in
  let n := n mod DI4Y in
  let n1 := n / 365 in
  let n := n mod 365 in
  let year := year + n100 * 100 + n4 * 4 + n1 in
  if (n1 =? 4) || (n100 =? 4) then (year - 1, 12, 31)
  else
    let leapyear := (n1 =? 3) && (negb (n4 =? 24) || (n100 =? 3)) in
    let month := Z.shiftr (n + 50) 5 in
    let preceding :=
      nth (Z.to_nat (month - 1)) DAYS_BEFORE_MONTH 0
      + (if (2 <? month) && leapyear then 1 else 0) in
    if n <? preceding then
      let month := month - 1 in
      let preceding :=
        preceding
        - (nth (Z.to_nat (month - 1)) DAYS_IN_MONTH 0
           + (if (month =? 2) && leapyear then 1 else 0)) in
      (year, month, n - preceding + 1)
    else (year, month, n - preceding + 1).

Definition year (d : Z) : Z := (ord2ymd d).1.1.
Definition month (d : Z) : Z := (ord2ymd d).1.2.
Definition day (d : Z) : Z := (ord2ymd d).2.

(** [d.weekday()]: Monday is 0, Sunday is 6 *)
Definition weekday (d : Z) : Z := (d + 6) mod 7.

Definition isoweek1monday (year : Z) : Z :=
  let firstday := ymd2ord year 1 1 in
  let firstweekday := (firstday + 6) mod 7 in
  let week1monday := firstday - firstweekday in
  if 3 <? firstweekday then week1monday + 7 else week1monday.

(** [d.isocalendar()[1]] *)
Definition isoweek (today : Z) : Z :=
  let y := year today in
  let week := (today - isoweek1monday y) / 7 in
  if week <? 0 then (today - isoweek1monday (y - 1)) / 7 + 1
  else if (52 <=? week) && (isoweek1monday (y + 1) <=? today) then 1
  else week + 1.

(** [calendar.monthrange(year, month)]; [None] stands for the
    [IllegalMonthError] raised outside 1..12. *)
Definition monthrange (year month : Z) : option (Z * Z) :=
  if (1 <=? month) && (month <=? 12)
  then Some (weekday (ymd2ord year month 1), days_in_month year month)
  else None.

End Calendrier.

Import Calendrier.

(** ** Strings *)

Definition upper_ascii (c : Ascii.ascii) : Ascii.ascii :=
  let n := Ascii.nat_of_ascii c in
  if ((97 <=? n) && (n <=? 122))%nat then Ascii.ascii_of_nat (n - 32) else c.

Fixpoint upper (s : string) : string :=
  match s with
  | EmptyString => EmptyString
  | String c s' => String (upper_ascii c) (upper s')
  end.

(** ** The database

    One finite map per table of [init_database], keyed by the primary key.
    [conges_periode] has an auto-incremented id: it is the list of its rows
    in insertion order. *)

Module Agent.
Record row := {
  nom : string;
  prenom : string;
  code_groupe : string;
  date_entree : Z;
  date_sortie : option Z;
  statut : string
}.
End Agent.

Module Planning.
Record row := { shift : string; origine : string }.
End Planning.

Module Conge.
Record row := {
  code_agent : string;
  date_debut : Z;
  date_fin : Z;
  date_creation : Z
}.
End Conge.

Record base := {
  agents : gmap string Agent.row;
  planning : gmap (string * Z) Planning.row;
  jours_feries : gmap Z string;
  conges_periode : list Conge.row
}.


Definition avec_planning (p : gmap (string * Z) Planning.row) (db : base) : base :=
  {| agents := agents db; planning := p;
     jours_feries := jours_feries db; conges_periode := conges_periode db |}.

Definition avec_conges (c : list Conge.row) (db : base) : base :=
  {| agents := agents db; planning := planning db;
     jours_feries := jours_feries db; conges_periode := c |}.

(** [INSERT OR REPLACE INTO planning (code_agent, date, shift, origine)] *)
Definition insert_or_replace (code_agent : string) (date_str : Z)
    (shift origine : string) (p : gmap (string * Z) Planning.row)
    : gmap (string * Z) Planning.row :=
  <[(code_agent, date_str) := {| Planning.shift := shift; Planning.origine := origine |}]> p.

(** What an endpoint answers: its payload, or the [HTTPException] raised. *)
Inductive reponse (A : Type) : Type :=
  | Succes (contenu : A)
  | HTTPException (status_code : Z) (detail : string).
Arguments Succes {A} contenu.
Arguments HTTPException {A} status_code detail.

Definition DATE_AFFECTATION_BASE : Z := ymd2ord 2025 11 1.

(** ** Request bodies (the pydantic models) *)

Module AgentCreate.
Record t := { code : string; nom : string; prenom : string; code_groupe : string }.
End AgentCreate.

Module ShiftModification.
Record t := { code_agent : string; date : Z; shift : string }.
End ShiftModification.

Module AbsenceRequest.
Record t := { code_agent : string; date : Z; type_absence : string }.
End AbsenceRequest.

Module CongeRequest.
Record t := { code_agent : string; date_debut : Z; date_fin : Z }.
End CongeRequest.

(** ** Rotation calculator *)

Definition cycle : list string := ["1"; "1"; "2"; "2"; "3"; "3"; "R"; "R"].

(** [cycle[jour_cycle % 8]]: Python's [%] with a positive modulus is
    [Z.modulo], so the index is always one of 0..7. *)
Definition _cycle_standard_8j (jour_cycle : Z) : string :=
  nth (Z.to_nat (jour_cycle mod 8)) cycle "".

Definition decalages : gmap string Z :=
  {[ "A" := 0; "B" := 2; "C" := 4; "D" := 6 ]}.

Definition _get_decalage_standard (code_groupe : string) : Z :=
  default 0 (decalages !! upper code_groupe).

(** [SELECT code FROM agents WHERE code_groupe='E' AND date_sortie IS NULL
    ORDER BY code] *)
Definition agents_du_groupe_E (db : base) : list string :=
  merge_sort String.le
    (map_to_list
       (filter (λ kv, Agent.code_groupe kv.2 = "E" ∧ Agent.date_sortie kv.2 = None)
               (agents db))).*1.

(** [l.index(x)], with [None] for the [ValueError] *)
Definition index (l : list string) (x : string) : option nat :=
  fst <$> list_find (λ y, y = x) l.

Definition _cycle_c_diff (jour_date : Z) (code_agent : string) (db : base) : string :=
  let jour_semaine := weekday jour_date in
  if 5 <=? jour_semaine then "R"
  else
    let agents_du_groupe := agents_du_groupe_E db in
    match index agents_du_groupe code_agent with
    | None => "R"
    | Some index_agent =>
      let num_semaine := isoweek jour_date in
      let jour_pair := jour_semaine mod 2 =? 0 in
      if (index_agent =? 0)%nat then
        if negb (num_semaine mod 2 =? 0)
        then (if jour_pair then "1" else "2")
        else (if jour_pair then "2" else "1")
      else if (index_agent =? 1)%nat then
        if negb (num_semaine mod 2 =? 0)
        then (if jour_pair then "2" else "1")
        else (if jour_pair then "1" else "2")
      else if (Z.of_nat index_agent + num_semaine) mod 2 =? 0 then "1" else "2"
    end.

Definition jours_feries_fixes : list (Z * Z) :=
  [(1, 1); (1, 11); (5, 1); (7, 30); (8, 14); (8, 20); (8, 21); (11, 6); (11, 18)].

Definition _est_jour_ferie (date_str : Z) (db : base) : bool :=
  match jours_feries db !! date_str with
  | Some _ => true
  | None => bool_decide ((month date_str, day date_str) ∈ jours_feries_fixes)
  end.

(** ** Shift resolver *)

Definition _get_shift_theorique (code_agent : string) (jour_date : Z) (db : base) : string :=
  match agents db !! code_agent with
  | None => "-"
  | Some agent_info =>
    let code_groupe := Agent.code_groupe agent_info in
    let date_entree := Agent.date_entree agent_info in
    if bool_decide (code_groupe = "E") then _cycle_c_diff jour_date code_agent db
    else if bool_decide (code_groupe ∈ ["A"; "B"; "C"; "D"]) then
      let delta_jours := jour_date - date_entree in
      let decalage := _get_decalage_standard code_groupe in
      let jour_cycle := delta_jours + decalage in
      _cycle_standard_8j jour_cycle
    else "R"
  end.

Definition _get_shift_effectif (code_agent : string) (date_str : Z) (db : base)
    : string * base :=
  match planning db !! (code_agent, date_str) with
  | Some result => (Planning.shift result, db)
  | None =>
    let shift_theorique := _get_shift_theorique code_agent date_str db in
    if bool_decide (shift_theorique ≠ "-") then
      (shift_theorique,
       avec_planning
         (insert_or_replace code_agent date_str shift_theorique "THEORIQUE" (planning db)) db)
    else (shift_theorique, db)
  end.

(** ** Manual writers *)

Definition modifier_shift (data : ShiftModification.t) (db : base) : reponse unit * base :=
  if bool_decide (upper (ShiftModification.shift data) ∉ ["1"; "2"; "3"; "R"; "C"; "M"; "A"])
  then (HTTPException 400 "Shift invalide", db)
  else
    match agents db !! upper (ShiftModification.code_agent data) with
    | None => (HTTPException 404 "Agent non trouvé", db)
    | Some _ =>
      (Succes (),
       avec_planning
         (insert_or_replace (upper (ShiftModification.code_agent data))
            (ShiftModification.date data) (upper (ShiftModification.shift data))
            "MANUEL" (planning db)) db)
    end.

Definition enregistrer_absence (data : AbsenceRequest.t) (db : base) : reponse unit * base :=
  if bool_decide (upper (AbsenceRequest.type_absence data) ∉ ["C"; "M"; "A"])
  then (HTTPException 400 "Type d'absence invalide", db)
  else
    match agents db !! upper (AbsenceRequest.code_agent data) with
    | None => (HTTPException 404 "Agent non trouvé", db)
    | Some _ =>
      (Succes (),
       avec_planning
         (insert_or_replace (upper (AbsenceRequest.code_agent data))
            (AbsenceRequest.date data) (upper (AbsenceRequest.type_absence data))
            "ABSENCE" (planning db)) db)
    end.

(** The [while current_date <= fin_obj] loop of [ajouter_conge]; [None] when
    the fuel runs out before the loop condition fails. *)
Fixpoint boucle_conges (fuel : nat) (code_agent : string) (current_date fin_obj : Z)
    (p : gmap (string * Z) Planning.row) (jours_conges : Z)
    : option (gmap (string * Z) Planning.row * Z) :=
  if fin_obj <? current_date then Some (p, jours_conges)
  else
    match fuel with
    | O => None
    | S fuel' =>
      if weekday current_date =? 6 then
        boucle_conges fuel' code_agent (current_date + 1) fin_obj
          (insert_or_replace code_agent current_date "R" "CONGE_DIMANCHE" p) jours_conges
      else
        boucle_conges fuel' code_agent (current_date + 1) fin_obj
          (insert_or_replace code_agent current_date "C" "CONGE_PERIODE" p) (jours_conges + 1)
    end.

Module ReponseConge.
Record t := { jours_conges : Z; duree_totale : Z }.
End ReponseConge.

(** [aujourdhui] is [date.today()]. *)
Definition ajouter_conge (fuel : nat) (aujourdhui : Z) (data : CongeRequest.t) (db : base)
    : option (reponse ReponseConge.t * base) :=
  match agents db !! upper (CongeRequest.code_agent data) with
  | None => Some (HTTPException 404 "Agent non trouvé", db)
  | Some _ =>
    let debut_obj := CongeRequest.date_debut data in
    let fin_obj := CongeRequest.date_fin data in
    if fin_obj <? debut_obj then Some (HTTPException 400 "Date début > Date fin", db)
    else
      let conges :=
        (conges_periode db ++
         [ {| Conge.code_agent := upper (CongeRequest.code_agent data);
              Conge.date_debut := debut_obj; Conge.date_fin := fin_obj;
              Conge.date_creation := aujourdhui |} ])%list in
      '(p, jours_conges) ←
        boucle_conges fuel (upper (CongeRequest.code_agent data)) debut_obj fin_obj
          (planning db) 0;
      Some (Succes {| ReponseConge.jours_conges := jours_conges;
                      ReponseConge.duree_totale := fin_obj - debut_obj + 1 |},
            avec_planning p (avec_conges conges db))
  end.

(** ** Statistics *)

(** The counter dictionary both statistics functions start from. *)
Definition stats_init : gmap string Z :=
  {[ "1" := 0; "2" := 0; "3" := 0; "R" := 0; "C" := 0; "M" := 0; "A" := 0; "-" := 0 ]}.

(** [stats[key]]; every counter dictionary carries the eight keys of
    [stats_init] from its creation on, so the read never misses. *)
Definition lire (stats : gmap string Z) (key : string) : Z :=
  default 0 (stats !! key).

Module Resultats.
Record t := {
  stats : gmap string Z;
  feries_travailles : Z;
  total_shifts : Z;
  total_operationnels : Z;
  groupe : option string
}.
End Resultats.

(** [SELECT shift, date FROM planning WHERE code_agent = ? AND date BETWEEN
    ? AND ?] *)
Definition lignes_planning (code_agent : string) (date_debut date_fin : Z) (db : base)
    : list (string * Z) :=
  (λ kv, (Planning.shift kv.2, kv.1.2)) <$>
    filter (λ kv, kv.1.1 = code_agent ∧ date_debut ≤ kv.1.2 ∧ kv.1.2 ≤ date_fin)
           (map_to_list (planning db)).

(** Body of the [for shift, date_str in cursor.fetchall()] loop. *)
Definition compter_ligne (db : base) (acc : gmap string Z * Z) (ligne : string * Z)
    : gmap string Z * Z :=
  let '(stats, feries_travailles) := acc in
  let '(shift, date_str) := ligne in
  match stats !! shift with
  | None => acc
  | Some n =>
    (<[shift := n + 1]> stats,
     if bool_decide (shift ∈ ["1"; "2"; "3"]) && _est_jour_ferie date_str db
     then feries_travailles + 1 else feries_travailles)
  end.

(** [None] stands for the exception [monthrange] raises on a month outside
    1..12. *)
Definition _calculer_stats_agent (code_agent : string) (mois annee : Z) (db : base)
    : option Resultats.t :=
  '(_, jours_mois) ← monthrange annee mois;
  let code_groupe := Agent.code_groupe <$> agents db !! code_agent in
  let date_debut := ymd2ord annee mois 1 in
  let date_fin := ymd2ord annee mois jours_mois in
  let '(stats, feries_travailles) :=
    foldl (compter_ligne db) (stats_init, 0)
          (lignes_planning code_agent date_debut date_fin db) in
  let total_shifts := lire stats "1" + lire stats "2" + lire stats "3" in
  let total_operationnels :=
    if bool_decide (code_groupe = Some "E") then total_shifts
    else total_shifts + feries_travailles in
  Some {| Resultats.stats := stats;
          Resultats.feries_travailles := feries_travailles;
          Resultats.total_shifts := total_shifts;
          Resultats.total_operationnels := total_operationnels;
          Resultats.groupe := code_groupe |}.

(** [SELECT code FROM agents WHERE date_sortie IS NULL] *)
Definition agents_actifs (db : base) : list string :=
  (map_to_list (filter (λ kv, Agent.date_sortie kv.2 = None) (agents db))).*1.

(** The call inside the [try] of [get_stats_global].  [panne agent] tells
    whether the database driver raises while the statistics of [agent] are
    read; any exception, from the driver or from [_calculer_stats_agent]
    itself, reaches the bare [except]. *)
Definition essayer_stats (panne : string → bool) (agent : string) (mois annee : Z)
    (db : base) : option Resultats.t :=
  if panne agent then None else _calculer_stats_agent agent mois annee db.

(** Body of the [for agent in agents] loop: [except: continue] leaves the
    totals as they are. *)
Definition agreger_agent (panne : string → bool) (mois annee : Z) (db : base)
    (acc : gmap string Z * Z * Z) (agent : string) : gmap string Z * Z * Z :=
  let '(stats_globales, total_feries, total_operationnels) := acc in
  match essayer_stats panne agent mois annee db with
  | None => acc
  | Some resultats =>
    (map_imap (λ key v, Some (v + lire (Resultats.stats resultats) key)) stats_globales,
     total_feries + Resultats.feries_travailles resultats,
     total_operationnels + Resultats.total_operationnels resultats)
  end.

Module StatsGlobales.
Record t := {
  stats_globales : gmap string Z;
  total_feries : Z;
  total_operationnels : Z;
  total_agents : Z
}.
End StatsGlobales.

(** The payload keeps what the aggregation computes; the per-group head
    count of the response is left out. *)
Definition get_stats_global (panne : string → bool) (mois annee : Z) (db : base)
    : reponse StatsGlobales.t :=
  let agents := agents_actifs db in
  let '(stats_globales, total_feries, total_operationnels) :=
    foldl (agreger_agent panne mois annee db) (stats_init, 0, 0) agents in
  Succes {| StatsGlobales.stats_globales := stats_globales;
            StatsGlobales.total_feries := total_feries;
            StatsGlobales.total_operationnels := total_operationnels;
            StatsGlobales.total_agents := Z.of_nat (length agents) |}.

(** ** Enrollment *)


Module ResultatsImport.
Record t := { importes : Z; ignores : Z }.
End ResultatsImport.



(** ** Reading aids for the statements *)




(** No stored record carries "-". *)
Definition planning_sans_tiret (db : base) : Prop :=
  map_Forall (λ _ r, Planning.shift r ∈ ["1"; "2"; "3"; "R"; "C"; "M"; "A"]) (planning db).

(** The eight symbols, which are also the keys of every counter dictionary. *)
Definition alphabet : list string := ["1"; "2"; "3"; "R"; "C"; "M"; "A"; "-"].

Definition cles_stats (stats : gmap string Z) : Prop :=
  ∀ k, is_Some (stats !! k) ↔ k ∈ alphabet.

Definition somme (l : list Z) : Z := foldr Z.add 0 l.

(** Sum of the eight counters. *)
Definition somme_compteurs (stats : gmap string Z) : Z :=
  somme (lire stats <$> alphabet).

(** Number of fetched rows that satisfy [P]. *)
Definition nb_lignes (P : string * Z → Prop) `{∀ l, Decision (P l)}
    (lignes : list (string * Z)) : Z :=
  Z.of_nat (length (filter P lignes)).


(** One write to the planning table, by any of the four operations that
    write to it. *)
Inductive ecriture : base → base → Prop :=
  | ecriture_effectif a d db :
      ecriture db (_get_shift_effectif a d db).2
  | ecriture_modifier data db :
      ecriture db (modifier_shift data db).2
  | ecriture_absence data db :
      ecriture db (enregistrer_absence data db).2
  | ecriture_conge fuel aujourdhui data db rep db' :
      ajouter_conge fuel aujourdhui data db = Some (rep, db') →
      ecriture db db'.

(** ** Sample data *)

Definition agent_exemple (groupe : string) : Agent.row :=
  {| Agent.nom := "Alami"; Agent.prenom := "Sara"; Agent.code_groupe := groupe;
     Agent.date_entree := DATE_AFFECTATION_BASE; Agent.date_sortie := None;
     Agent.statut := "actif" |}.

Definition base_vide : base :=
  {| agents := ∅; planning := ∅; jours_feries := ∅; conges_periode := [] |}.

(** Four agents: one in B, one in A, two in E. *)
Definition base_exemple : base :=
  {| agents := {[ "B001" := agent_exemple "B"; "A001" := agent_exemple "A";
                  "E001" := agent_exemple "E"; "E002" := agent_exemple "E" ]};
     planning := ∅; jours_feries := ∅; conges_periode := [] |}.

(** [base_exemple] with a sick day recorded for B001 on 2025-11-03. *)
Definition base_absence : base :=
  avec_planning
    {[ ("B001", 739558) := {| Planning.shift := "M"; Planning.origine := "ABSENCE" |} ]}
    base_exemple.

(** [base_exemple] in November 2025: B001 worked on the 6th (a fixed public
    holiday) and the 7th and was sick on the 8th; E001 worked on the 6th. *)
Definition base_novembre : base :=
  avec_planning
    {[ ("B001", ymd2ord 2025 11 6) := {| Planning.shift := "1"; Planning.origine := "THEORIQUE" |};
       ("B001", ymd2ord 2025 11 7) := {| Planning.shift := "2"; Planning.origine := "MANUEL" |};
       ("B001", ymd2ord 2025 11 8) := {| Planning.shift := "M"; Planning.origine := "ABSENCE" |};
       ("E001", ymd2ord 2025 11 6) := {| Planning.shift := "1"; Planning.origine := "THEORIQUE" |} ]}
    base_exemple.

(** * Properties *)

(** ** The calendar on known days *)

Example calendrier_jours_connus :
  ymd2ord 2025 11 1 = 739556 ∧ ord2ymd 739556 = (2025, 11, 1)
  ∧ weekday (ymd2ord 2025 11 3) = 0 ∧ weekday (ymd2ord 2025 11 9) = 6
  ∧ isoweek (ymd2ord 2025 11 3) = 45 ∧ isoweek (ymd2ord 2024 12 30) = 1
  ∧ isoweek (ymd2ord 2021 1 3) = 53 ∧ isoweek (ymd2ord 2025 12 31) = 1
  ∧ ord2ymd (ymd2ord 2024 2 29) = (2024, 2, 29)
  ∧ monthrange 2025 11 = Some (5, 30) ∧ monthrange 2024 2 = Some (3, 29)
  ∧ monthrange 1900 2 = Some (3, 28) ∧ monthrange 2025 13 = None.
Proof. by vm_compute. Qed.

Example jours_feries_fixes_reconnus :
  _est_jour_ferie (ymd2ord 2025 1 1) base_vide = true
  ∧ _est_jour_ferie (ymd2ord 2025 11 6) base_vide = true
  ∧ _est_jour_ferie (ymd2ord 2025 11 7) base_vide = false.
Proof. by vm_compute. Qed.

(** Case analysis on [H : x ∈ [a; b; ...]]: [tac] closes the goal for each
    entry substituted for [x]. *)
Ltac cas_liste H tac :=
  repeat (apply elem_of_cons in H as [->|H]; [tac|]);
  apply elem_of_nil in H; destruct H.

(** [H : x ∈ [a; b; ...]] with [x] different from every entry *)
Ltac hors_liste H :=
  repeat (apply elem_of_cons in H as [H|H]; [discriminate H|]);
  by apply elem_of_nil in H.

(** ** Rotation of the standard groups *)

Lemma cycle_standard_lookup (jour_cycle : Z) :
  cycle !! Z.to_nat (jour_cycle mod 8) = Some (_cycle_standard_8j jour_cycle).
Proof.
  unfold _cycle_standard_8j.
  pose proof (Z.mod_pos_bound jour_cycle 8 eq_refl) as Hb.
  remember (Z.to_nat (jour_cycle mod 8)) as n eqn:Hn.
  assert (n < 8)%nat as Hlt by lia.
  do 8 (destruct n as [|n]; [reflexivity|]). lia.
Qed.

Lemma cycle_standard_periode (jour_cycle k : Z) :
  _cycle_standard_8j (jour_cycle + 8 * k) = _cycle_standard_8j jour_cycle.
Proof.
  unfold _cycle_standard_8j.
  replace (jour_cycle + 8 * k) with (jour_cycle + k * 8) by lia.
  by rewrite Z.mod_add.
Qed.

Lemma theorique_groupe_standard db a info d :
  agents db !! a = Some info →
  Agent.code_groupe info ∈ ["A"; "B"; "C"; "D"] →
  _get_shift_theorique a d db =
    _cycle_standard_8j
      (d - Agent.date_entree info + _get_decalage_standard (Agent.code_groupe info)).
Proof.
  intros Ha Hg. unfold _get_shift_theorique. rewrite Ha. cbn zeta.
  rewrite bool_decide_eq_false_2.
  - by rewrite bool_decide_eq_true_2.
  - intros HE. rewrite HE in Hg. hors_liste Hg.
Qed.

(** C2: for an agent of group A, B, C or D with entry date [e], the
    theoretical shift on any day [d], before or after [e], is the entry of
    the pattern 1,1,2,2,3,3,R,R at position [(d - e + offset) mod 8], with
    offset 0, 2, 4, 6 for A, B, C, D; it repeats every 8 days and depends on
    [d] only through that position. *)
Theorem theorique_standard_motif db a info g offset d :
  agents db !! a = Some info →
  Agent.code_groupe info = g →
  (g, offset) ∈ [("A", 0); ("B", 2); ("C", 4); ("D", 6)] →
  ["1"; "1"; "2"; "2"; "3"; "3"; "R"; "R"]
    !! Z.to_nat ((d - Agent.date_entree info + offset) mod 8)
    = Some (_get_shift_theorique a d db)
  ∧ (∀ k, _get_shift_theorique a (d + 8 * k) db = _get_shift_theorique a d db)
  ∧ (∀ d', (d' - Agent.date_entree info + offset) mod 8
           = (d - Agent.date_entree info + offset) mod 8 →
           _get_shift_theorique a d' db = _get_shift_theorique a d db).
Proof.
  intros Ha Hg Hoff.
  assert (Agent.code_groupe info ∈ ["A"; "B"; "C"; "D"]
          ∧ _get_decalage_standard (Agent.code_groupe info) = offset) as [Hstd Hdec].
  { rewrite Hg. clear Hg.
    repeat (apply elem_of_cons in Hoff as [Hoff|Hoff];
            [injection Hoff as -> ->; split; [compute_done|reflexivity]|]).
    by apply elem_of_nil in Hoff. }
  split; [|split].
  - rewrite (theorique_groupe_standard _ _ _ _ Ha Hstd), Hdec.
    apply cycle_standard_lookup.
  - intros k. rewrite !(theorique_groupe_standard _ _ _ _ Ha Hstd).
    replace (d + 8 * k - Agent.date_entree info + _get_decalage_standard (Agent.code_groupe info))
      with (d - Agent.date_entree info + _get_decalage_standard (Agent.code_groupe info) + 8 * k)
      by lia.
    apply cycle_standard_periode.
  - intros d' Hmod. rewrite !(theorique_groupe_standard _ _ _ _ Ha Hstd), Hdec.
    unfold _cycle_standard_8j. by rewrite Hmod.
Qed.

Lemma theorique_standard_motif_witness :
  ["1"; "1"; "2"; "2"; "3"; "3"; "R"; "R"]
    !! Z.to_nat ((739550 - Agent.date_entree (agent_exemple "B") + 2) mod 8)
    = Some (_get_shift_theorique "B001" 739550 base_exemple)
  ∧ (∀ k, _get_shift_theorique "B001" (739550 + 8 * k) base_exemple
          = _get_shift_theorique "B001" 739550 base_exemple)
  ∧ (∀ d', (d' - Agent.date_entree (agent_exemple "B") + 2) mod 8
           = (739550 - Agent.date_entree (agent_exemple "B") + 2) mod 8 →
           _get_shift_theorique "B001" d' base_exemple
           = _get_shift_theorique "B001" 739550 base_exemple).
Proof.
  apply (theorique_standard_motif base_exemple "B001" (agent_exemple "B") "B" 2 739550).
  - reflexivity.
  - reflexivity.
  - compute_done.
Defined.

(** ** Rotation of group E *)

Lemma index_NoDup (l : list string) (i : nat) (x : string) :
  NoDup l → l !! i = Some x → index l x = Some i.
Proof.
  intros Hnd Hi. unfold index.
  assert (list_find (λ y, y = x) l = Some (i, x)) as ->; [|done].
  apply list_find_Some. split; [done|]. split; [done|].
  intros j y Hj Hlt ->.
  pose proof (NoDup_lookup _ _ _ _ Hnd Hi Hj). lia.
Qed.

Lemma agents_du_groupe_E_NoDup db : NoDup (agents_du_groupe_E db).
Proof.
  unfold agents_du_groupe_E.
  rewrite merge_sort_Permutation. apply NoDup_fst_map_to_list.
Qed.

Lemma agents_du_groupe_E_elem db a :
  a ∈ agents_du_groupe_E db ↔
  ∃ info, agents db !! a = Some info
          ∧ Agent.code_groupe info = "E" ∧ Agent.date_sortie info = None.
Proof.
  unfold agents_du_groupe_E. rewrite merge_sort_Permutation, list_elem_of_fmap.
  split.
  - intros [[a' info] [-> Hin]]. exists info.
    apply elem_of_map_to_list, map_lookup_filter_Some in Hin. naive_solver.
  - intros (info & Ha & HE & Hs). exists (a, info). split; [done|].
    apply elem_of_map_to_list, map_lookup_filter_Some. naive_solver.
Qed.

Lemma agents_du_groupe_E_trie db : Sorted String.le (agents_du_groupe_E db).
Proof. unfold agents_du_groupe_E. apply (Sorted_merge_sort String.le). Qed.

Lemma cycle_c_diff_rang db d a i :
  weekday d < 5 →
  agents_du_groupe_E db !! i = Some a →
  _cycle_c_diff d a db =
    let num_semaine := isoweek d in
    let jour_pair := weekday d mod 2 =? 0 in
    if (i =? 0)%nat then
      if negb (num_semaine mod 2 =? 0)
      then (if jour_pair then "1" else "2")
      else (if jour_pair then "2" else "1")
    else if (i =? 1)%nat then
      if negb (num_semaine mod 2 =? 0)
      then (if jour_pair then "2" else "1")
      else (if jour_pair then "1" else "2")
    else if (Z.of_nat i + num_semaine) mod 2 =? 0 then "1" else "2".
Proof.
  intros Hwd Hi. unfold _cycle_c_diff.
  destruct (5 <=? weekday d) eqn:Hw; [lia|].
  by rewrite (index_NoDup _ _ _ (agents_du_groupe_E_NoDup db) Hi).
Qed.

(** C10: on a weekday (Monday to Friday), the members of group E at ranks
    0 and 1 of the active members sorted by code get complementary shifts:
    one gets "1" and the other "2", whatever the parity of the ISO week and
    of the day of the week; the same holds through [_get_shift_theorique]. *)
Theorem groupe_E_rangs_0_1_complementaires db d a0 a1 :
  weekday d < 5 →
  agents_du_groupe_E db !! 0%nat = Some a0 →
  agents_du_groupe_E db !! 1%nat = Some a1 →
  String.le a0 a1
  ∧ ((_cycle_c_diff d a0 db = "1" ∧ _cycle_c_diff d a1 db = "2")
     ∨ (_cycle_c_diff d a0 db = "2" ∧ _cycle_c_diff d a1 db = "1"))
  ∧ ((_get_shift_theorique a0 d db = "1" ∧ _get_shift_theorique a1 d db = "2")
     ∨ (_get_shift_theorique a0 d db = "2" ∧ _get_shift_theorique a1 d db = "1")).
Proof.
  intros Hwd H0 H1.
  assert (∀ i a, agents_du_groupe_E db !! i = Some a →
                 _get_shift_theorique a d db = _cycle_c_diff d a db) as Hth.
  { intros i a Hi. apply list_elem_of_lookup_2, agents_du_groupe_E_elem in Hi
      as (info & Ha & HE & _).
    unfold _get_shift_theorique. rewrite Ha. cbn zeta.
    by rewrite bool_decide_eq_true_2. }
  split.
  - pose proof (agents_du_groupe_E_trie db) as Hs.
    destruct (agents_du_groupe_E db) as [|x [|y l]]; try done.
    simplify_eq/=. apply Sorted_inv in Hs as [_ Hhd]. by inversion Hhd.
  - rewrite (Hth _ _ H0), (Hth _ _ H1).
    rewrite (cycle_c_diff_rang _ _ _ _ Hwd H0), (cycle_c_diff_rang _ _ _ _ Hwd H1).
    cbn. destruct (isoweek d mod 2 =? 0), (weekday d mod 2 =? 0); cbn; auto.
Qed.

Lemma groupe_E_rangs_0_1_complementaires_witness :
  String.le "E001" "E002"
  ∧ ((_cycle_c_diff 739558 "E001" base_exemple = "1"
      ∧ _cycle_c_diff 739558 "E002" base_exemple = "2")
     ∨ (_cycle_c_diff 739558 "E001" base_exemple = "2"
        ∧ _cycle_c_diff 739558 "E002" base_exemple = "1"))
  ∧ ((_get_shift_theorique "E001" 739558 base_exemple = "1"
      ∧ _get_shift_theorique "E002" 739558 base_exemple = "2")
     ∨ (_get_shift_theorique "E001" 739558 base_exemple = "2"
        ∧ _get_shift_theorique "E002" 739558 base_exemple = "1")).
Proof.
  apply (groupe_E_rangs_0_1_complementaires base_exemple 739558 "E001" "E002").
  - reflexivity.
  - vm_compute. reflexivity.
  - vm_compute. reflexivity.
Defined.

(** ** The resolver and the manual writers *)

Lemma cycle_standard_symbole (jour_cycle : Z) :
  _cycle_standard_8j jour_cycle ∈ ["1"; "2"; "3"; "R"].
Proof.
  pose proof (cycle_standard_lookup jour_cycle) as H.
  apply list_elem_of_lookup_2 in H. unfold cycle in H.
  cas_liste H ltac:(compute_done).
Qed.

Lemma cycle_c_diff_symbole d a db : _cycle_c_diff d a db ∈ ["1"; "2"; "R"].
Proof.
  unfold _cycle_c_diff.
  repeat match goal with
         | |- context [if ?b then _ else _] => destruct b
         | |- context [match ?o with Some _ => _ | None => _ end] => destruct o
         end; compute_done.
Qed.

Lemma theorique_symbole a d db :
  _get_shift_theorique a d db ∈ ["1"; "2"; "3"; "R"; "-"].
Proof.
  unfold _get_shift_theorique.
  destruct (agents db !! a) as [info|]; [|compute_done]. cbn zeta.
  repeat case_bool_decide.
  - pose proof (cycle_c_diff_symbole d a db) as Hsym.
    cas_liste Hsym ltac:(compute_done).
  - pose proof (cycle_standard_symbole
                  (d - Agent.date_entree info
                   + _get_decalage_standard (Agent.code_groupe info))) as Hsym.
    cas_liste Hsym ltac:(compute_done).
  - compute_done.
Qed.

Lemma theorique_agent_connu a d db :
  is_Some (agents db !! a) → _get_shift_theorique a d db ∈ ["1"; "2"; "3"; "R"].
Proof.
  intros [info Ha]. unfold _get_shift_theorique. rewrite Ha. cbn zeta.
  repeat case_bool_decide.
  - pose proof (cycle_c_diff_symbole d a db) as Hsym.
    cas_liste Hsym ltac:(compute_done).
  - apply cycle_standard_symbole.
  - compute_done.
Qed.

Lemma upper_alphabet (s : string) :
  s ∈ ["1"; "2"; "3"; "R"; "C"; "M"; "A"; "-"] → upper s = s.
Proof.
  intros H. cas_liste H ltac:(reflexivity).
Qed.

Lemma modifier_shift_succes_inv data db db1 :
  modifier_shift data db = (Succes (), db1) →
  upper (ShiftModification.shift data) ∈ ["1"; "2"; "3"; "R"; "C"; "M"; "A"]
  ∧ is_Some (agents db !! upper (ShiftModification.code_agent data))
  ∧ db1 = avec_planning
            (insert_or_replace (upper (ShiftModification.code_agent data))
               (ShiftModification.date data) (upper (ShiftModification.shift data))
               "MANUEL" (planning db)) db.
Proof.
  unfold modifier_shift. case_bool_decide as Hs; [done|].
  destruct (agents db !! upper (ShiftModification.code_agent data)) eqn:Ha; [|done].
  intros [= <-]. split_and!; by eauto.
Qed.

Lemma effectif_apres_modifier data db db1 :
  modifier_shift data db = (Succes (), db1) →
  _get_shift_effectif (upper (ShiftModification.code_agent data))
    (ShiftModification.date data) db1
  = (upper (ShiftModification.shift data), db1).
Proof.
  intros (_ & _ & ->)%modifier_shift_succes_inv.
  unfold _get_shift_effectif, insert_or_replace. cbn.
  by rewrite lookup_insert_eq.
Qed.

(** C1: [_get_shift_effectif] returns the stored symbol of an existing
    record, whatever its origin, and leaves the database as it is; after a
    successful [modifier_shift] on a key it returns the symbol set manually
    (stored upper-cased), also when the key held a cached theoretical value;
    with no record and an unknown agent it returns "-" and writes nothing;
    with no record and a known agent it returns the theoretical symbol and
    stores it with origin THEORIQUE exactly when it is not "-". *)
Theorem effectif_resolution db a d :
  (∀ r, planning db !! (a, d) = Some r →
        _get_shift_effectif a d db = (Planning.shift r, db))
  ∧ (∀ symbole db1,
        modifier_shift {| ShiftModification.code_agent := a;
                          ShiftModification.date := d;
                          ShiftModification.shift := symbole |} db = (Succes (), db1) →
        _get_shift_effectif (upper a) d db1 = (upper symbole, db1)
        ∧ (symbole ∈ ["1"; "2"; "3"; "R"; "C"; "M"; "A"; "-"] →
           _get_shift_effectif (upper a) d db1 = (symbole, db1)))
  ∧ (∀ symbole db2,
        modifier_shift {| ShiftModification.code_agent := a;
                          ShiftModification.date := d;
                          ShiftModification.shift := symbole |}
                       (_get_shift_effectif (upper a) d db).2 = (Succes (), db2) →
        _get_shift_effectif (upper a) d db2 = (upper symbole, db2))
  ∧ (planning db !! (a, d) = None → agents db !! a = None →
        _get_shift_effectif a d db = ("-", db))
  ∧ (planning db !! (a, d) = None → is_Some (agents db !! a) →
        (_get_shift_effectif a d db).1 = _get_shift_theorique a d db
        ∧ _get_shift_theorique a d db ∈ ["1"; "2"; "3"; "R"]
        ∧ (_get_shift_theorique a d db ≠ "-" →
           (_get_shift_effectif a d db).2
           = avec_planning
               (<[(a, d) := {| Planning.shift := _get_shift_theorique a d db;
                               Planning.origine := "THEORIQUE" |}]> (planning db)) db)
        ∧ (_get_shift_theorique a d db = "-" → (_get_shift_effectif a d db).2 = db)).
Proof.
  split_and!.
  - intros r Hr. unfold _get_shift_effectif. by rewrite Hr.
  - intros symbole db1 H. apply effectif_apres_modifier in H. cbn in H.
    split; [done|]. intros Hs. by rewrite (upper_alphabet _ Hs) in H.
  - intros symbole db2 H. by apply effectif_apres_modifier in H.
  - intros Hp Ha. unfold _get_shift_effectif, _get_shift_theorique.
    rewrite Hp, Ha. by rewrite bool_decide_eq_false_2 by (by intros []).
  - intros Hp Ha. unfold _get_shift_effectif. rewrite Hp. split_and!.
    + by case_bool_decide.
    + by apply theorique_agent_connu.
    + intros Hne. by rewrite bool_decide_eq_true_2.
    + intros He. by rewrite bool_decide_eq_false_2 by (by intros []).
Qed.

Lemma effectif_resolution_witness :
  _get_shift_effectif "B001" 739558 base_absence = ("M", base_absence)
  ∧ _get_shift_effectif "B001" 739558
      (modifier_shift {| ShiftModification.code_agent := "b001";
                         ShiftModification.date := 739558;
                         ShiftModification.shift := "r" |}
                      (_get_shift_effectif "B001" 739558 base_exemple).2).2
    = ("R", (modifier_shift {| ShiftModification.code_agent := "b001";
                               ShiftModification.date := 739558;
                               ShiftModification.shift := "r" |}
                            (_get_shift_effectif "B001" 739558 base_exemple).2).2)
  ∧ _get_shift_effectif "Z999" 739558 base_exemple = ("-", base_exemple)
  ∧ (_get_shift_effectif "B001" 739558 base_exemple).1
    = _get_shift_theorique "B001" 739558 base_exemple.
Proof.
  split_and!.
  - apply (proj1 (effectif_resolution base_absence "B001" 739558)
             {| Planning.shift := "M"; Planning.origine := "ABSENCE" |}).
    reflexivity.
  - apply (proj1 (proj2 (proj2 (effectif_resolution base_exemple "b001" 739558))) "r").
    reflexivity.
  - apply (proj1 (proj2 (proj2 (proj2 (effectif_resolution base_exemple "Z999" 739558))))).
    + reflexivity.
    + reflexivity.
  - apply (proj2 (proj2 (proj2 (proj2 (effectif_resolution base_exemple "B001" 739558))))).
    + reflexivity.
    + by eexists.
Defined.

(** C6, as the code has it: [modifier_shift] succeeds exactly when the
    upper-cased symbol is one of the seven symbols 1, 2, 3, R, C, M, A and
    the agent with the upper-cased code exists; it then inserts or replaces
    the record of (agent, date) with that symbol and origin MANUEL.  In every
    other case, "-" included, it raises a 400 or a 404 and the database is
    unchanged. *)
Theorem modifier_shift_succes_ssi data db :
  let code := upper (ShiftModification.code_agent data) in
  let symbole := upper (ShiftModification.shift data) in
  (symbole ∈ ["1"; "2"; "3"; "R"; "C"; "M"; "A"] ∧ is_Some (agents db !! code) →
     modifier_shift data db
     = (Succes (),
        avec_planning
          (<[(code, ShiftModification.date data) :=
               {| Planning.shift := symbole; Planning.origine := "MANUEL" |}]>
             (planning db)) db))
  ∧ (symbole ∉ ["1"; "2"; "3"; "R"; "C"; "M"; "A"] →
     modifier_shift data db = (HTTPException 400 "Shift invalide", db))
  ∧ (symbole ∈ ["1"; "2"; "3"; "R"; "C"; "M"; "A"] → agents db !! code = None →
     modifier_shift data db = (HTTPException 404 "Agent non trouvé", db))
  ∧ (∀ db1, modifier_shift data db = (Succes (), db1) →
     symbole ∈ ["1"; "2"; "3"; "R"; "C"; "M"; "A"] ∧ is_Some (agents db !! code)).
Proof.
  cbn zeta. split_and!.
  - intros [Hs [info Ha]]. unfold modifier_shift.
    rewrite bool_decide_eq_false_2 by (by intros Hn). by rewrite Ha.
  - intros Hs. unfold modifier_shift. by rewrite bool_decide_eq_true_2.
  - intros Hs Ha. unfold modifier_shift.
    rewrite bool_decide_eq_false_2 by (by intros Hn). by rewrite Ha.
  - intros db1 H. apply modifier_shift_succes_inv in H as (Hs & Ha & _). by split.
Qed.

Lemma modifier_shift_succes_ssi_witness :
  modifier_shift {| ShiftModification.code_agent := "b001";
                    ShiftModification.date := 739558;
                    ShiftModification.shift := "r" |} base_exemple
  = (Succes (),
     avec_planning
       (<[("B001", 739558) :=
            {| Planning.shift := "R"; Planning.origine := "MANUEL" |}]>
          (planning base_exemple)) base_exemple)
  ∧ modifier_shift {| ShiftModification.code_agent := "B001";
                      ShiftModification.date := 739558;
                      ShiftModification.shift := "X" |} base_exemple
    = (HTTPException 400 "Shift invalide", base_exemple)
  ∧ modifier_shift {| ShiftModification.code_agent := "Z999";
                      ShiftModification.date := 739558;
                      ShiftModification.shift := "1" |} base_exemple
    = (HTTPException 404 "Agent non trouvé", base_exemple).
Proof.
  split_and!.
  - apply (proj1 (modifier_shift_succes_ssi
                    {| ShiftModification.code_agent := "b001";
                       ShiftModification.date := 739558;
                       ShiftModification.shift := "r" |} base_exemple)).
    split; [compute_done | by eexists].
  - apply (proj1 (proj2 (modifier_shift_succes_ssi
                    {| ShiftModification.code_agent := "B001";
                       ShiftModification.date := 739558;
                       ShiftModification.shift := "X" |} base_exemple))).
    compute_done.
  - apply (proj1 (proj2 (proj2 (modifier_shift_succes_ssi
                    {| ShiftModification.code_agent := "Z999";
                       ShiftModification.date := 739558;
                       ShiftModification.shift := "1" |} base_exemple)))).
    + compute_done.
    + reflexivity.
Defined.

(** C6 as stated fails on "-": it belongs to the eight-symbol alphabet and
    the agent exists, yet [modifier_shift] answers 400 and writes nothing. *)
Lemma modifier_shift_refuse_tiret :
  "-" ∈ ["1"; "2"; "3"; "R"; "C"; "M"; "A"; "-"]
  ∧ is_Some (agents base_exemple !! "B001")
  ∧ modifier_shift {| ShiftModification.code_agent := "B001";
                      ShiftModification.date := 739558;
                      ShiftModification.shift := "-" |} base_exemple
    = (HTTPException 400 "Shift invalide", base_exemple).
Proof. split_and!; [compute_done | by eexists | reflexivity]. Qed.

(** ** Leave periods *)






(** ** No "-" in the planning table *)

Lemma boucle_conges_sans_tiret fuel code current_date fin_obj p jours_conges p' jours' :
  map_Forall (λ _ r, Planning.shift r ∈ ["1"; "2"; "3"; "R"; "C"; "M"; "A"]) p →
  boucle_conges fuel code current_date fin_obj p jours_conges = Some (p', jours') →
  map_Forall (λ _ r, Planning.shift r ∈ ["1"; "2"; "3"; "R"; "C"; "M"; "A"]) p'.
Proof.
  revert current_date p jours_conges.
  induction fuel as [|fuel IH]; intros cur p j Hp; cbn;
    destruct (fin_obj <? cur); try (intros [= <- <-]; done); try done.
  destruct (weekday cur =? 6); apply IH;
    (apply map_Forall_insert_2; [compute_done | done]).
Qed.

Lemma ecriture_sans_tiret db db' :
  planning_sans_tiret db → ecriture db db' → planning_sans_tiret db'.
Proof.
  unfold planning_sans_tiret. intros Hinv Hstep. destruct Hstep.
  - unfold _get_shift_effectif.
    destruct (planning db !! (a, d)); [done|].
    case_bool_decide as Hs; [|done]. cbn.
    apply map_Forall_insert_2; [|done]. cbn.
    pose proof (theorique_symbole a d db) as Hsym.
    repeat (apply elem_of_cons in Hsym as [Heq|Hsym];
            [try (by destruct Hs); rewrite Heq; compute_done|]).
    by apply elem_of_nil in Hsym.
  - unfold modifier_shift. case_bool_decide as Hs; [done|].
    destruct (agents db !! _); [|done]. cbn.
    by apply map_Forall_insert_2.
  - unfold enregistrer_absence. case_bool_decide as Hs; [done|].
    destruct (agents db !! _); [|done]. cbn.
    apply map_Forall_insert_2; [|done]. cbn.
    cas_liste Hs ltac:(compute_done).
  - unfold ajouter_conge in H.
    destruct (agents db !! _); [|by simplify_eq].
    destruct (_ <? _); [by simplify_eq|]. cbn zeta in H.
    destruct (boucle_conges _ _ _ _ _ _) as [[p' j']|] eqn:Hrun; [|done].
    cbn in H. simplify_eq. cbn.
    by eapply boucle_conges_sans_tiret.
Qed.

Lemma boucle_conges_ecrit_C_ou_R fuel code current_date fin_obj p jours_conges p' jours' k r :
  boucle_conges fuel code current_date fin_obj p jours_conges = Some (p', jours') →
  p' !! k = Some r →
  p !! k = Some r ∨ Planning.shift r = "C" ∨ Planning.shift r = "R".
Proof.
  revert current_date p jours_conges.
  induction fuel as [|fuel IH]; intros cur p j; cbn;
    destruct (fin_obj <? cur); try (intros [= <- <-]; by left); try done.
  destruct (weekday cur =? 6); intros Hrun Hk;
    (destruct (IH _ _ _ Hrun Hk) as [Hins|Hcr]; [|by right]);
    unfold insert_or_replace in Hins;
    apply lookup_insert_Some in Hins as [[_ <-]|[_ Hp]]; auto.
Qed.

(** C8: the four operations that write to the planning table never store
    "-".  The cache fill of [_get_shift_effectif] writes nothing when the
    theoretical symbol is "-", [modifier_shift] and [enregistrer_absence]
    answer 400 on "-" before any write, and [ajouter_conge] only writes C or
    R; so from a table whose symbols are among 1, 2, 3, R, C, M, A every
    sequence of such writes leads to a table with the same property. *)
Theorem planning_jamais_tiret db db' :
  planning_sans_tiret db →
  rtc ecriture db db' →
  (∀ k r, planning db' !! k = Some r →
          Planning.shift r ∈ ["1"; "2"; "3"; "R"; "C"; "M"; "A"])
  ∧ (∀ a d, _get_shift_theorique a d db' = "-" → (_get_shift_effectif a d db').2 = db')
  ∧ (∀ data, upper (ShiftModification.shift data) = "-" →
             modifier_shift data db' = (HTTPException 400 "Shift invalide", db'))
  ∧ (∀ data, upper (AbsenceRequest.type_absence data) = "-" →
             enregistrer_absence data db' = (HTTPException 400 "Type d'absence invalide", db'))
  ∧ (∀ fuel aujourdhui data rep db'' k r,
       ajouter_conge fuel aujourdhui data db' = Some (rep, db'') →
       planning db'' !! k = Some r →
       planning db' !! k = Some r ∨ Planning.shift r = "C" ∨ Planning.shift r = "R").
Proof.
  intros Hinv Hrtc.
  assert (planning_sans_tiret db') as Hinv'.
  { induction Hrtc as [|x y z Hstep _ IH]; [done|].
    apply IH. by eapply ecriture_sans_tiret. }
  split_and!.
  - intros k r Hk. by apply (Hinv' k r).
  - intros a d Hs. unfold _get_shift_effectif.
    destruct (planning db' !! (a, d)); [done|].
    by rewrite bool_decide_eq_false_2 by (by intros []).
  - intros data Hs. unfold modifier_shift. rewrite Hs. reflexivity.
  - intros data Hs. unfold enregistrer_absence. rewrite Hs. reflexivity.
  - intros fuel aujourdhui data rep db'' k r Hrun Hk.
    unfold ajouter_conge in Hrun.
    destruct (agents db' !! _) as [info|] eqn:Ha; [|simplify_eq; by left].
    destruct (_ <? _) eqn:Hcmp; [simplify_eq; by left|]. cbn zeta in Hrun.
    destruct (boucle_conges _ _ _ _ _ _) as [[p' j']|] eqn:Hloop; [|done].
    cbn in Hrun. simplify_eq. cbn in Hk.
    by eapply boucle_conges_ecrit_C_ou_R.
Qed.

Lemma planning_jamais_tiret_witness :
  Planning.shift {| Planning.shift := "3"; Planning.origine := "THEORIQUE" |}
    ∈ ["1"; "2"; "3"; "R"; "C"; "M"; "A"]
  ∧ modifier_shift {| ShiftModification.code_agent := "B001";
                      ShiftModification.date := 739558;
                      ShiftModification.shift := "-" |}
                   (_get_shift_effectif "B001" 739558 base_exemple).2
    = (HTTPException 400 "Shift invalide",
       (_get_shift_effectif "B001" 739558 base_exemple).2).
Proof.
  pose proof (planning_jamais_tiret base_exemple
                (_get_shift_effectif "B001" 739558 base_exemple).2
                (map_Forall_empty _)
                (rtc_once _ _ (ecriture_effectif "B001" 739558 base_exemple)))
    as (Hk & _ & Hm & _).
  split.
  - apply (Hk ("B001", 739558)). reflexivity.
  - apply Hm. reflexivity.
Defined.

(** ** Statistics of one agent *)

Lemma stats_init_cles : cles_stats stats_init.
Proof.
  intros k. unfold stats_init, alphabet.
  rewrite !lookup_insert_is_Some, !elem_of_cons, elem_of_nil.
  unfold is_Some. setoid_rewrite lookup_singleton_Some.
  naive_solver.
Qed.

Lemma lire_insert stats k v k' :
  lire (<[k := v]> stats) k' = if decide (k = k') then v else lire stats k'.
Proof. unfold lire. rewrite lookup_insert. by case_decide. Qed.

Lemma nb_lignes_nil (P : string * Z → Prop) `{∀ l, Decision (P l)} :
  nb_lignes P [] = 0.
Proof. reflexivity. Qed.

Lemma nb_lignes_cons (P : string * Z → Prop) `{∀ l, Decision (P l)} l lignes :
  nb_lignes P (l :: lignes) = (if decide (P l) then 1 else 0) + nb_lignes P lignes.
Proof.
  unfold nb_lignes. rewrite filter_cons. case_decide; cbn [length]; lia.
Qed.

Lemma compter_ligne_cles db stats f l :
  cles_stats stats → cles_stats (compter_ligne db (stats, f) l).1.
Proof.
  intros Hc. destruct l as [s d]. cbn.
  destruct (stats !! s) as [n|] eqn:Hs; [|done]. cbn.
  intros k. rewrite lookup_insert_is_Some. rewrite <- (Hc k).
  split.
  - intros [<-|[_ H]]; [by eexists | done].
  - intros H. destruct (decide (s = k)); auto.
Qed.

Lemma compter_ligne_somme db stats f l :
  cles_stats stats →
  somme_compteurs (compter_ligne db (stats, f) l).1
  = somme_compteurs stats + (if decide (l.1 ∈ alphabet) then 1 else 0).
Proof.
  intros Hc. destruct l as [s d]. cbn.
  destruct (stats !! s) as [n|] eqn:Hs; cbn.
  - assert (s ∈ alphabet) as Hin by (apply Hc; by eexists).
    rewrite decide_True by done.
    assert (lire stats s = n) as Hn by (unfold lire; by rewrite Hs).
    unfold somme_compteurs, alphabet in *. cbn. rewrite !lire_insert.
    cas_liste Hin ltac:(repeat case_decide; try done; lia).
  - rewrite decide_False; [lia|]. intros Hin. apply Hc in Hin as [? ?]. congruence.
Qed.

Lemma compter_ligne_lire db stats f l k :
  cles_stats stats → k ∈ alphabet →
  lire (compter_ligne db (stats, f) l).1 k
  = lire stats k + (if decide (l.1 = k) then 1 else 0).
Proof.
  intros Hc Hk. destruct l as [s d]. cbn.
  destruct (stats !! s) as [n|] eqn:Hs; cbn.
  - rewrite lire_insert. case_decide as Heq; [|lia].
    subst k. unfold lire. rewrite Hs. cbn. lia.
  - rewrite decide_False; [lia|]. intros ->.
    apply Hc in Hk as [? ?]. congruence.
Qed.

Lemma compter_ligne_feries db stats f l :
  cles_stats stats →
  (compter_ligne db (stats, f) l).2
  = f + (if decide (l.1 ∈ ["1"; "2"; "3"] ∧ _est_jour_ferie l.2 db = true)
         then 1 else 0).
Proof.
  intros Hc. destruct l as [s d]. cbn.
  destruct (stats !! s) as [n|] eqn:Hs; cbn.
  - case_bool_decide as H123; cbn.
    + destruct (_est_jour_ferie d db); case_decide as Hd; first [lia | naive_solver].
    + rewrite decide_False; [lia|]. by intros [? _].
  - rewrite decide_False; [lia|]. intros [H123 _].
    assert (s ∈ alphabet) as Hin.
    { unfold alphabet.
      cas_liste H123 ltac:(compute_done). }
    apply Hc in Hin as [? ?]. congruence.
Qed.

Lemma compter_fold db lignes stats f :
  cles_stats stats →
  cles_stats (foldl (compter_ligne db) (stats, f) lignes).1
  ∧ somme_compteurs (foldl (compter_ligne db) (stats, f) lignes).1
    = somme_compteurs stats + nb_lignes (λ l, l.1 ∈ alphabet) lignes
  ∧ (∀ k, k ∈ alphabet →
          lire (foldl (compter_ligne db) (stats, f) lignes).1 k
          = lire stats k + nb_lignes (λ l, l.1 = k) lignes)
  ∧ (foldl (compter_ligne db) (stats, f) lignes).2
    = f + nb_lignes (λ l, l.1 ∈ ["1"; "2"; "3"] ∧ _est_jour_ferie l.2 db = true) lignes.
Proof.
  revert stats f. induction lignes as [|l lignes IH]; intros stats f Hc.
  - cbn [foldl fst snd]. rewrite !nb_lignes_nil.
    split_and!; [done | lia | intros; rewrite nb_lignes_nil; lia | lia].
  - cbn [foldl].
    pose proof (compter_ligne_cles db stats f l Hc) as Hc1.
    pose proof (compter_ligne_somme db stats f l Hc) as Hs1.
    pose proof (λ k, compter_ligne_lire db stats f l k Hc) as Hl1.
    pose proof (compter_ligne_feries db stats f l Hc) as Hf1.
    destruct (compter_ligne db (stats, f) l) as [stats1 f1]. cbn [fst snd] in *.
    destruct (IH stats1 f1 Hc1) as (Hc2 & Hs2 & Hl2 & Hf2).
    rewrite !nb_lignes_cons. split_and!.
    + done.
    + rewrite Hs2, Hs1. lia.
    + intros k Hk. rewrite (Hl2 k Hk), (Hl1 k Hk), nb_lignes_cons. lia.
    + rewrite Hf2, Hf1. lia.
Qed.








(** What [_calculer_stats_agent] returns, in terms of the rows it fetches. *)
Lemma calculer_stats_agent_spec a mois annee db jour_semaine jours_mois :
  monthrange annee mois = Some (jour_semaine, jours_mois) →
  ∃ r,
    _calculer_stats_agent a mois annee db = Some r
    ∧ cles_stats (Resultats.stats r)
    ∧ (∀ k, k ∈ alphabet →
         lire (Resultats.stats r) k
         = nb_lignes (λ l, l.1 = k)
             (lignes_planning a (ymd2ord annee mois 1) (ymd2ord annee mois jours_mois) db))
    ∧ somme_compteurs (Resultats.stats r)
      = nb_lignes (λ l, l.1 ∈ alphabet)
          (lignes_planning a (ymd2ord annee mois 1) (ymd2ord annee mois jours_mois) db)
    ∧ Resultats.feries_travailles r
      = nb_lignes (λ l, l.1 ∈ ["1"; "2"; "3"] ∧ _est_jour_ferie l.2 db = true)
          (lignes_planning a (ymd2ord annee mois 1) (ymd2ord annee mois jours_mois) db)
    ∧ Resultats.groupe r = Agent.code_groupe <$> agents db !! a
    ∧ Resultats.total_shifts r
      = lire (Resultats.stats r) "1" + lire (Resultats.stats r) "2"
        + lire (Resultats.stats r) "3"
    ∧ Resultats.total_operationnels r
      = if bool_decide (Resultats.groupe r = Some "E")
        then Resultats.total_shifts r
        else Resultats.total_shifts r + Resultats.feries_travailles r.
Proof.
  intros Hmr. unfold _calculer_stats_agent. rewrite Hmr. cbn.
  destruct (compter_fold db
              (lignes_planning a (ymd2ord annee mois 1) (ymd2ord annee mois jours_mois) db)
              stats_init 0 stats_init_cles) as (Hc & Hs & Hl & Hf).
  destruct (foldl _ _ _) as [stats f]. cbn [fst snd] in *.
  eexists. split; [reflexivity|]. cbn.
  split_and!; try done.
  intros k Hk. rewrite (Hl k Hk).
  assert (lire stats_init k = 0) as ->; [|lia].
  unfold alphabet in Hk.
  cas_liste Hk ltac:(reflexivity).
Qed.




(** C5: among the rows counted by [_calculer_stats_agent], a day is a
    holiday worked exactly when its symbol is 1, 2 or 3 and
    [_est_jour_ferie] flags its date; [total_operationnels] is
    count(1) + count(2) + count(3) + [feries_travailles] when the group of
    the agent is not E, and count(1) + count(2) + count(3) when it is E. *)
Theorem stats_agent_feries_operationnels a mois annee db jour_semaine jours_mois :
  monthrange annee mois = Some (jour_semaine, jours_mois) →
  ∃ r,
    _calculer_stats_agent a mois annee db = Some r
    ∧ (∀ k, k ∈ ["1"; "2"; "3"] →
         lire (Resultats.stats r) k
         = nb_lignes (λ l, l.1 = k)
             (lignes_planning a (ymd2ord annee mois 1) (ymd2ord annee mois jours_mois) db))
    ∧ Resultats.feries_travailles r
      = nb_lignes (λ l, l.1 ∈ ["1"; "2"; "3"] ∧ _est_jour_ferie l.2 db = true)
          (lignes_planning a (ymd2ord annee mois 1) (ymd2ord annee mois jours_mois) db)
    ∧ Resultats.groupe r = Agent.code_groupe <$> agents db !! a
    ∧ (Resultats.groupe r ≠ Some "E" →
       Resultats.total_operationnels r
       = lire (Resultats.stats r) "1" + lire (Resultats.stats r) "2"
         + lire (Resultats.stats r) "3" + Resultats.feries_travailles r)
    ∧ (Resultats.groupe r = Some "E" →
       Resultats.total_operationnels r
       = lire (Resultats.stats r) "1" + lire (Resultats.stats r) "2"
         + lire (Resultats.stats r) "3").
Proof.
  intros Hmr.
  destruct (calculer_stats_agent_spec a mois annee db _ _ Hmr)
    as (r & Hr & _ & Hl & _ & Hf & Hg & Hts & Hto).
  exists r. split_and!; [done | | done | done | |].
  - intros k Hk. apply Hl. unfold alphabet.
    cas_liste Hk ltac:(compute_done).
  - intros HE. by rewrite Hto, bool_decide_eq_false_2, Hts.
  - intros HE. by rewrite Hto, bool_decide_eq_true_2, Hts.
Qed.

Lemma stats_agent_feries_operationnels_witness :
  ∃ r,
    _calculer_stats_agent "E001" 11 2025 base_novembre = Some r
    ∧ (∀ k, k ∈ ["1"; "2"; "3"] →
         lire (Resultats.stats r) k
         = nb_lignes (λ l, l.1 = k)
             (lignes_planning "E001" (ymd2ord 2025 11 1) (ymd2ord 2025 11 30) base_novembre))
    ∧ Resultats.feries_travailles r
      = nb_lignes (λ l, l.1 ∈ ["1"; "2"; "3"] ∧ _est_jour_ferie l.2 base_novembre = true)
          (lignes_planning "E001" (ymd2ord 2025 11 1) (ymd2ord 2025 11 30) base_novembre)
    ∧ Resultats.groupe r = Agent.code_groupe <$> agents base_novembre !! "E001"
    ∧ (Resultats.groupe r ≠ Some "E" →
       Resultats.total_operationnels r
       = lire (Resultats.stats r) "1" + lire (Resultats.stats r) "2"
         + lire (Resultats.stats r) "3" + Resultats.feries_travailles r)
    ∧ (Resultats.groupe r = Some "E" →
       Resultats.total_operationnels r
       = lire (Resultats.stats r) "1" + lire (Resultats.stats r) "2"
         + lire (Resultats.stats r) "3").
Proof.
  apply (stats_agent_feries_operationnels "E001" 11 2025 base_novembre 5 30).
  reflexivity.
Defined.

(** The two cases of C5 on [base_novembre]: B001 (group B) worked the
    holiday of 6 November and the 7th, E001 (group E) worked the holiday. *)
Example stats_novembre_B001_E001 :
  (∃ r, _calculer_stats_agent "B001" 11 2025 base_novembre = Some r
        ∧ Resultats.feries_travailles r = 1 ∧ Resultats.total_shifts r = 2
        ∧ Resultats.total_operationnels r = 3)
  ∧ (∃ r, _calculer_stats_agent "E001" 11 2025 base_novembre = Some r
          ∧ Resultats.feries_travailles r = 1 ∧ Resultats.total_shifts r = 1
          ∧ Resultats.total_operationnels r = 1).
Proof. split; (eexists; split; [reflexivity|]; by vm_compute). Qed.

(** ** Global statistics *)

Lemma lire_ajout (stats_globales stats : gmap string Z) k :
  cles_stats stats_globales → k ∈ alphabet →
  lire (map_imap (λ key v, Some (v + lire stats key)) stats_globales) k
  = lire stats_globales k + lire stats k.
Proof.
  intros Hc Hk. apply Hc in Hk as [v Hv].
  unfold lire. by rewrite map_lookup_imap, Hv.
Qed.

Lemma cles_ajout (stats_globales stats : gmap string Z) :
  cles_stats stats_globales →
  cles_stats (map_imap (λ key v, Some (v + lire stats key)) stats_globales).
Proof.
  intros Hc k. rewrite <- (Hc k), map_lookup_imap.
  destruct (stats_globales !! k); cbn; split; intros [? ?]; by eauto.
Qed.

Lemma agreger_agent_eq panne mois annee db stats_globales total_feries total_op a :
  agreger_agent panne mois annee db (stats_globales, total_feries, total_op) a
  = match essayer_stats panne a mois annee db with
    | None => (stats_globales, total_feries, total_op)
    | Some r =>
      (map_imap (λ key v, Some (v + lire (Resultats.stats r) key)) stats_globales,
       total_feries + Resultats.feries_travailles r,
       total_op + Resultats.total_operationnels r)
    end.
Proof. reflexivity. Qed.

Lemma somme_cons (x : Z) (l : list Z) : somme (x :: l) = x + somme l.
Proof. reflexivity. Qed.

Lemma omap_cons_cas {A B} (f : A → option B) (x : A) (l : list A) :
  omap f (x :: l) = match f x with Some y => y :: omap f l | None => omap f l end.
Proof. reflexivity. Qed.

Lemma agreger_fold panne mois annee db agents_l stats_globales total_feries total_op :
  cles_stats stats_globales →
  cles_stats (foldl (agreger_agent panne mois annee db)
                (stats_globales, total_feries, total_op) agents_l).1.1
  ∧ (∀ k, k ∈ alphabet →
       lire (foldl (agreger_agent panne mois annee db)
               (stats_globales, total_feries, total_op) agents_l).1.1 k
       = lire stats_globales k
         + somme ((λ r, lire (Resultats.stats r) k)
                    <$> omap (λ a, essayer_stats panne a mois annee db) agents_l))
  ∧ (foldl (agreger_agent panne mois annee db)
       (stats_globales, total_feries, total_op) agents_l).1.2
    = total_feries
      + somme (Resultats.feries_travailles
                 <$> omap (λ a, essayer_stats panne a mois annee db) agents_l)
  ∧ (foldl (agreger_agent panne mois annee db)
       (stats_globales, total_feries, total_op) agents_l).2
    = total_op
      + somme (Resultats.total_operationnels
                 <$> omap (λ a, essayer_stats panne a mois annee db) agents_l).
Proof.
  revert stats_globales total_feries total_op.
  induction agents_l as [|a agents_l IH]; intros sg tf top Hc.
  - cbn. split_and!; [done | intros; lia | lia | lia].
  - cbn [foldl]. rewrite agreger_agent_eq, omap_cons_cas.
    destruct (essayer_stats panne a mois annee db) as [r|] eqn:Hr.
    + destruct (IH _ (tf + Resultats.feries_travailles r)
                  (top + Resultats.total_operationnels r) (cles_ajout sg (Resultats.stats r) Hc))
        as (Hc' & Hl & Hf & Ho).
      split_and!; [done | | |].
      * intros k Hk. rewrite (Hl k Hk), lire_ajout, fmap_cons, somme_cons by done. lia.
      * rewrite Hf, fmap_cons, somme_cons. lia.
      * rewrite Ho, fmap_cons, somme_cons. lia.
    + by apply IH.
Qed.

Lemma omap_sans_echec {A B} (f : A → option B) (l1 : list A) (a : A) (l2 : list A) :
  f a = None → omap f (l1 ++ a :: l2)%list = omap f (l1 ++ l2)%list.
Proof.
  intros Ha. by rewrite !omap_app, omap_cons_cas, Ha.
Qed.

Lemma omap_tous_reussis {A B} (f : A → option B) (l : list A) :
  (∀ x, x ∈ l → is_Some (f x)) → length (omap f l) = length l.
Proof.
  induction l as [|x l IH]; intros Hall; [done|].
  rewrite omap_cons_cas.
  destruct (Hall x) as [y ->]; [by left|].
  cbn. rewrite IH; [done|]. intros z Hz. apply Hall. by right.
Qed.

(** C7: [get_stats_global] always answers.  An active agent whose
    statistics raise is skipped: the global counters, the holidays worked and
    the operational total are the sums of the per-agent results over the
    other agents; when the other N-1 all succeed, exactly N-1 results are
    summed. *)
Theorem stats_global_tolerance panne mois annee db :
  ∃ g,
    get_stats_global panne mois annee db = Succes g
    ∧ StatsGlobales.total_agents g = Z.of_nat (length (agents_actifs db))
    ∧ ((∀ k, k ∈ ["1"; "2"; "3"; "R"; "C"; "M"; "A"; "-"] →
          lire (StatsGlobales.stats_globales g) k
          = somme ((λ r, lire (Resultats.stats r) k)
                     <$> omap (λ b, essayer_stats panne b mois annee db) (agents_actifs db)))
       ∧ StatsGlobales.total_feries g
         = somme (Resultats.feries_travailles
                    <$> omap (λ b, essayer_stats panne b mois annee db) (agents_actifs db))
       ∧ StatsGlobales.total_operationnels g
         = somme (Resultats.total_operationnels
                    <$> omap (λ b, essayer_stats panne b mois annee db) (agents_actifs db)))
    ∧ (∀ l1 a l2,
         agents_actifs db = (l1 ++ a :: l2)%list →
         essayer_stats panne a mois annee db = None →
         (∀ k, k ∈ ["1"; "2"; "3"; "R"; "C"; "M"; "A"; "-"] →
            lire (StatsGlobales.stats_globales g) k
            = somme ((λ r, lire (Resultats.stats r) k)
                       <$> omap (λ b, essayer_stats panne b mois annee db) (l1 ++ l2)%list))
         ∧ StatsGlobales.total_feries g
           = somme (Resultats.feries_travailles
                      <$> omap (λ b, essayer_stats panne b mois annee db) (l1 ++ l2)%list)
         ∧ StatsGlobales.total_operationnels g
           = somme (Resultats.total_operationnels
                      <$> omap (λ b, essayer_stats panne b mois annee db) (l1 ++ l2)%list)
         ∧ ((∀ b, b ∈ (l1 ++ l2)%list → is_Some (essayer_stats panne b mois annee db)) →
            length (omap (λ b, essayer_stats panne b mois annee db) (l1 ++ l2)%list)
            = (length (agents_actifs db) - 1)%nat)).
Proof.
  unfold get_stats_global.
  destruct (agreger_fold panne mois annee db (agents_actifs db) stats_init 0 0
              stats_init_cles) as (_ & Hl & Hf & Ho).
  destruct (foldl _ _ _) as [[sg tf] top]. cbn [fst snd] in *.
  assert (∀ k, k ∈ alphabet → lire stats_init k = 0) as Hinit.
  { intros k Hk. unfold alphabet in Hk.
    cas_liste Hk ltac:(reflexivity). }
  eexists. split; [reflexivity|]. cbn.
  assert ((∀ k, k ∈ alphabet →
             lire sg k
             = somme ((λ r, lire (Resultats.stats r) k)
                        <$> omap (λ b, essayer_stats panne b mois annee db) (agents_actifs db)))
          ∧ tf = somme (Resultats.feries_travailles
                          <$> omap (λ b, essayer_stats panne b mois annee db) (agents_actifs db))
          ∧ top = somme (Resultats.total_operationnels
                           <$> omap (λ b, essayer_stats panne b mois annee db) (agents_actifs db)))
    as Htot.
  { split_and!; [|lia|lia]. intros k Hk. rewrite (Hl k Hk), (Hinit k Hk). lia. }
  split_and!; [done | apply Htot | apply Htot | apply Htot |].
  intros l1 a l2 Hagents Ha.
  rewrite Hagents in Htot.
  rewrite (omap_sans_echec _ l1 a l2 Ha) in Htot.
  destruct Htot as (H1 & H2 & H3).
  split_and!; [done | done | done |].
  intros Hall. rewrite (omap_tous_reussis _ _ Hall), Hagents, !length_app. cbn. lia.
Qed.

Lemma stats_global_tolerance_witness :
  ∃ g,
    get_stats_global (λ a, bool_decide (a = "E001")) 11 2025 base_novembre = Succes g
    ∧ StatsGlobales.total_feries g
      = somme (Resultats.feries_travailles
                 <$> omap (λ b, essayer_stats (λ a, bool_decide (a = "E001")) b 11 2025
                                  base_novembre)
                          ["E002"; "A001"; "B001"])
    ∧ StatsGlobales.total_operationnels g
      = somme (Resultats.total_operationnels
                 <$> omap (λ b, essayer_stats (λ a, bool_decide (a = "E001")) b 11 2025
                                  base_novembre)
                          ["E002"; "A001"; "B001"])
    ∧ length (omap (λ b, essayer_stats (λ a, bool_decide (a = "E001")) b 11 2025
                           base_novembre)
                   ["E002"; "A001"; "B001"])
      = (length (agents_actifs base_novembre) - 1)%nat.
Proof.
  destruct (stats_global_tolerance (λ a, bool_decide (a = "E001")) 11 2025 base_novembre)
    as (g & Hg & _ & _ & Hskip).
  exists g. split; [exact Hg|].
  assert (agents_actifs base_novembre = ([] ++ "E001" :: ["E002"; "A001"; "B001"])%list) as H1
    by (vm_compute; exact eq_refl).
  assert (essayer_stats (λ a : string, bool_decide (a = "E001")) "E001" 11 2025
            base_novembre = None) as H2
    by (vm_compute; exact eq_refl).
  destruct (Hskip [] "E001" ["E002"; "A001"; "B001"] H1 H2) as (_ & Hf & Ho & Hn).
  split; [exact Hf|]. split; [exact Ho|]. apply Hn.
  intros b Hb. change ([] ++ ["E002"; "A001"; "B001"])%list with ["E002"; "A001"; "B001"] in Hb.
  repeat (apply elem_of_cons in Hb as [->|Hb]; [vm_compute; eexists; exact eq_refl|]).
  apply elem_of_nil in Hb. destruct Hb.
Defined.

(** ** Enrollment *)






